(** * find-diagrams: the icon search component

    A shallow embedding of [src/components/SearchClient.tsx]: the pure
    helpers of the component ([filtered], [getImportParts],
    [normalizeProvider], [toggleTheme]) as functions, and its event
    handlers ([handleKeyDown], [copyToClipboard], the timer callback) as
    transitions over an explicit component state.  The returned element is
    embedded as the record of its state-dependent parts ([render]), and
    the two theme effects as transitions of the page ([mount],
    [dispatch]).

    Strings are sequences of code units.  The embedding covers code units
    0..255 (one [ascii] each), where [toLowerCase], [trim], [includes],
    [split] and [join] below are the ECMAScript operations exactly. *)

From Stdlib Require Import Bool Arith NArith ZArith Lia List Ascii String.
From Stdlib Require Import DecimalString DecimalNat.
Import ListNotations.

Open Scope string_scope.
Open Scope list_scope.

(** ** The string operations the component calls *)

Module JsString.

(** Code units with an upper-case form different from themselves:
    A-Z, and in the upper half U+00C0..U+00DE without U+00D7. *)
Definition isUpper (c : ascii) : bool :=
  let n := N_of_ascii c in
  ((65 <=? n) && (n <=? 90)
   || (192 <=? n) && (n <=? 222) && negb (n =? 215))%N.

Definition lowerChar (c : ascii) : ascii :=
  if isUpper c then ascii_of_N (N_of_ascii c + 32) else c.

(** [String.prototype.toLowerCase] *)
Fixpoint toLowerCase (s : string) : string :=
  match s with
  | EmptyString => EmptyString
  | String c rest => String (lowerChar c) (toLowerCase rest)
  end.

(** WhiteSpace and LineTerminator code units: TAB, LF, VT, FF, CR,
    SP and NBSP. *)
Definition isWhiteSpace (c : ascii) : bool :=
  let n := N_of_ascii c in
  ((9 <=? n) && (n <=? 13) || (n =? 32) || (n =? 160))%N.

Fixpoint trimStart (s : string) : string :=
  match s with
  | EmptyString => EmptyString
  | String c rest => if isWhiteSpace c then trimStart rest else s
  end.

Fixpoint trimEnd (s : string) : string :=
  match s with
  | EmptyString => EmptyString
  | String c rest =>
      match trimEnd rest with
      | EmptyString => if isWhiteSpace c then EmptyString else String c EmptyString
      | t => String c t
      end
  end.

(** [String.prototype.trim] *)
Definition trim (s : string) : string := trimEnd (trimStart s).

(** ToBoolean of a string: only the empty string is falsy. *)
Definition truthy (s : string) : bool :=
  match s with
  | EmptyString => false
  | String _ _ => true
  end.

(** [s.startsWith(t)] *)
Fixpoint startsWith (s t : string) {struct t} : bool :=
  match t, s with
  | EmptyString, _ => true
  | String _ _, EmptyString => false
  | String b t', String a s' => Ascii.eqb a b && startsWith s' t'
  end.

(** [s.includes(searchString)]: the search string occurs at some
    position of [s]. *)
Fixpoint includes (s searchString : string) : bool :=
  startsWith s searchString
  || match s with
     | EmptyString => false
     | String _ rest => includes rest searchString
     end.

(** [parts.join(sep)] *)
Fixpoint join (sep : string) (parts : list string) : string :=
  match parts with
  | [] => EmptyString
  | [p] => p
  | p :: rest => p ++ sep ++ join sep rest
  end.

(** [s.split(sep)] for a non-empty separator.  [skip] counts the code
    units of a separator occurrence still to be passed over; [cur] is the
    piece read since the last occurrence. *)
Fixpoint splitFrom (sep : string) (skip : nat) (cur s : string) : list string :=
  match s with
  | EmptyString => [cur]
  | String c rest =>
      match skip with
      | S k => splitFrom sep k cur rest
      | O =>
          if startsWith s sep
          then cur :: splitFrom sep (String.length sep - 1) EmptyString rest
          else splitFrom sep 0 (cur ++ String c EmptyString) rest
      end
  end.

Definition split (s sep : string) : list string :=
  splitFrom sep 0 EmptyString s.

(** [xs.slice(start, end)], with negative indices counted from the end. *)
Definition relativeIndex {A} (xs : list A) (i : Z) : nat :=
  let len := Z.of_nat (List.length xs) in
  Z.to_nat (if (i <? 0)%Z then Z.max (len + i) 0 else Z.min i len).

Definition slice {A} (xs : list A) (start final : Z) : list A :=
  let k := relativeIndex xs start in
  let e := relativeIndex xs final in
  firstn (e - k) (skipn k xs).

End JsString.

Import JsString.

(** ** Data model *)

Record Icon := mkIcon {
  name : string;
  import_path : string;
  provider : string;
  module : option string;
  docstring : option string
}.

Inductive Theme := light | dark.

(** ** The query engine *)

(** The predicate of [icons.filter(...)] in [filtered]. *)
Definition iconMatches (lowerQuery : string) (icon : Icon) : bool :=
  includes (toLowerCase (name icon)) lowerQuery
  || includes (toLowerCase (import_path icon)) lowerQuery.

Definition filtered (icons : list Icon) (query : string) (showAll : bool) : list Icon :=
  if negb (truthy (trim query)) && negb showAll then []
  else
    let lowerQuery := toLowerCase query in
    List.filter (iconMatches lowerQuery) icons.

(** ** Derived fields of a result card *)

(** [className] is [parts[parts.length - 1]]: an index outside the array
    reads [undefined], here [None]. *)
Record ImportParts := mkImportParts {
  className : option string;
  modulePath : string
}.

Definition getImportParts (icon : Icon) : ImportParts :=
  let parts := split (import_path icon) "." in
  let className := nth_error parts (List.length parts - 1) in
  let modulePath := join "." (slice parts 0 (-1)) in
  {| className := className; modulePath := modulePath |}.

Definition normalizeProvider (p : string) : string :=
  if includes p "aws" then "aws"
  else if includes p "azure" then "azure"
  else if includes p "gcp" || includes p "google" then "gcp"
  else if includes p "k8s" || includes p "kubernetes" then "k8s"
  else if includes p "alibaba" then "alibabacloud"
  else "default".

(** ** Component state and event handlers *)

(** The one closure the component hands to [setTimeout]:
    [() => setCopied(null)]. *)
Inductive Callback := ClearCopied.

(** The hooks of the component ([useState], [useRef]) together with the
    two pieces of the platform its handlers write to: the clipboard (texts
    written, latest first) and the pending timers (deadline in ms and
    callback, earliest deadline first).  [inputRef] is [None] while no
    input element is attached, and otherwise tells whether the element has
    the focus. *)
Record State := mkState {
  query : string;
  copied : option string;
  showAll : bool;
  theme : Theme;
  inputRef : option bool;
  lastEscapeTime : Z;
  clipboard : list string;
  timers : list (Z * Callback)
}.

Definition initialState : State :=
  {| query := ""; copied := None; showAll := false; theme := light;
     inputRef := Some false; lastEscapeTime := 0%Z;
     clipboard := []; timers := [] |}.

Definition setQuery (v : string) (st : State) : State :=
  {| query := v; copied := copied st; showAll := showAll st; theme := theme st;
     inputRef := inputRef st; lastEscapeTime := lastEscapeTime st;
     clipboard := clipboard st; timers := timers st |}.

Definition setCopied (v : option string) (st : State) : State :=
  {| query := query st; copied := v; showAll := showAll st; theme := theme st;
     inputRef := inputRef st; lastEscapeTime := lastEscapeTime st;
     clipboard := clipboard st; timers := timers st |}.

Definition setShowAll (v : bool) (st : State) : State :=
  {| query := query st; copied := copied st; showAll := v; theme := theme st;
     inputRef := inputRef st; lastEscapeTime := lastEscapeTime st;
     clipboard := clipboard st; timers := timers st |}.

Definition setTheme (f : Theme -> Theme) (st : State) : State :=
  {| query := query st; copied := copied st; showAll := showAll st;
     theme := f (theme st);
     inputRef := inputRef st; lastEscapeTime := lastEscapeTime st;
     clipboard := clipboard st; timers := timers st |}.

(** [inputRef.current?.focus()] and [inputRef.current?.blur()] *)
Definition setFocus (b : bool) (st : State) : State :=
  {| query := query st; copied := copied st; showAll := showAll st; theme := theme st;
     inputRef := option_map (fun _ => b) (inputRef st);
     lastEscapeTime := lastEscapeTime st;
     clipboard := clipboard st; timers := timers st |}.

Definition setLastEscapeTime (t : Z) (st : State) : State :=
  {| query := query st; copied := copied st; showAll := showAll st; theme := theme st;
     inputRef := inputRef st; lastEscapeTime := t;
     clipboard := clipboard st; timers := timers st |}.

Definition writeText (text : string) (st : State) : State :=
  {| query := query st; copied := copied st; showAll := showAll st; theme := theme st;
     inputRef := inputRef st; lastEscapeTime := lastEscapeTime st;
     clipboard := text :: clipboard st; timers := timers st |}.

Definition setTimers (ts : list (Z * Callback)) (st : State) : State :=
  {| query := query st; copied := copied st; showAll := showAll st; theme := theme st;
     inputRef := inputRef st; lastEscapeTime := lastEscapeTime st;
     clipboard := clipboard st; timers := ts |}.

Definition hasFocus (st : State) : bool :=
  match inputRef st with
  | Some b => b
  | None => false
  end.

(** The "Initialize Theme" effect; [prefersDark] is [None] when
    [window.matchMedia] is missing. *)
Definition initTheme (prefersDark : option bool) (st : State) : State :=
  match prefersDark with
  | Some true => setTheme (fun _ => dark) st
  | _ => setTheme (fun _ => light) st
  end.

Definition Theme_eqb (a b : Theme) : bool :=
  match a, b with
  | light, light | dark, dark => true
  | _, _ => false
  end.

Definition toggleTheme (st : State) : State :=
  setTheme (fun prev => if Theme_eqb prev light then dark else light) st.

Record KeyboardEvent := mkKeyboardEvent {
  metaKey : bool;
  ctrlKey : bool;
  key : string
}.

(** [handleKeyDown e], where [now] is what [Date.now()] returns during
    the call.  The second component tells whether [e.preventDefault()] was
    called. *)
Definition handleKeyDown (e : KeyboardEvent) (now : Z) (st : State) : State * bool :=
  let '(st1, prevented) :=
    if (metaKey e || ctrlKey e) && String.eqb (key e) "k"
    then (setFocus true st, true)
    else (st, false) in
  let st2 :=
    if String.eqb (key e) "Escape" then
      let st' :=
        if (now - lastEscapeTime st1 <? 300)%Z
        then setFocus false (setQuery "" st1)
        else st1 in
      setLastEscapeTime now st'
    else st1 in
  (st2, prevented).

(** [setTimeout(cb, delay)] called at time [now]: the timer joins the
    pending ones behind every timer due no later than it. *)
Fixpoint schedule (deadline : Z) (cb : Callback) (ts : list (Z * Callback))
  : list (Z * Callback) :=
  match ts with
  | [] => [(deadline, cb)]
  | (d, c) :: rest =>
      if (d <=? deadline)%Z then (d, c) :: schedule deadline cb rest
      else (deadline, cb) :: ts
  end.

Definition setTimeout (cb : Callback) (delay now : Z) (st : State) : State :=
  setTimers (schedule (now + delay) cb (timers st)) st.

Definition copyToClipboard (text id : string) (now : Z) (st : State) : State :=
  setTimeout ClearCopied 2000 now (setCopied (Some id) (writeText text st)).

Definition runCallback (cb : Callback) (st : State) : State :=
  match cb with
  | ClearCopied => setCopied None st
  end.

(** The event loop at time [now]: every pending timer whose deadline has
    passed runs, in order, and leaves the pending list. *)
Fixpoint fireDue (now : Z) (ts : list (Z * Callback)) (st : State) : State :=
  match ts with
  | [] => setTimers [] st
  | (d, cb) :: rest =>
      if (d <=? now)%Z then fireDue now rest (runCallback cb st)
      else
        let st' := fireDue now rest st in
        setTimers ((d, cb) :: timers st') st'
  end.

Definition runTimers (now : Z) (st : State) : State := fireDue now (timers st) st.

(** What the user and the platform can do to the mounted component. *)
Inductive Event :=
| KeyDown (e : KeyboardEvent)
| InputChange (value : string)
| ClickClear
| ClickShowAll
| ClickTheme
| ClickCopy (text id : string).

Definition handle (ev : Event) (now : Z) (st : State) : State :=
  match ev with
  | KeyDown e => fst (handleKeyDown e now st)
  | InputChange v => setQuery v st
  | ClickClear => setQuery "" st
  | ClickShowAll => setShowAll (negb (showAll st)) st
  | ClickTheme => toggleTheme st
  | ClickCopy text id => copyToClipboard text id now st
  end.

(** One turn of the event loop: the timers due at [now] run, then the
    handler of the event. *)
Definition step (st : State) (timed : Z * Event) : State :=
  handle (snd timed) (fst timed) (runTimers (fst timed) st).

Definition run (evs : list (Z * Event)) (st : State) : State :=
  fold_left step evs st.

(** ** What the component renders *)

(** A number in a template literal; an array index prints as its decimal
    digits. *)
Definition indexToString (idx : nat) : string :=
  NilEmpty.string_of_uint (Nat.to_uint idx).

(** A string-or-undefined value in a template literal. *)
Definition interpolate (v : option string) : string :=
  match v with
  | Some s => s
  | None => "undefined"
  end.

(** [copied === id] *)
Definition copiedIs (copied : option string) (id : string) : bool :=
  match copied with
  | Some c => String.eqb c id
  | None => false
  end.

Definition copyId (idx : nat) : string := "card-" ++ indexToString idx.
Definition pathId (idx : nat) : string := "path-" ++ indexToString idx.

Definition fullImport (parts : ImportParts) : string :=
  "from " ++ modulePath parts ++ " import " ++ interpolate (className parts).

(** One [<article>] of the results grid: its texts, whether its two
    confirmations are shown, and what its two click handlers do. *)
Record Card := mkCard {
  cardTitle : string;
  cardPath : string;
  pathCopied : bool;
  dataProvider : string;
  providerLabel : string;
  codeModule : string;
  codeClass : option string;
  copyActive : bool;
  onPathClick : Event;
  onCopyClick : Event
}.

(** The body of [filtered.map((icon, idx) => ...)]. *)
Definition renderCard (copied : option string) (icon : Icon) (idx : nat) : Card :=
  let parts := getImportParts icon in
  {| cardTitle := name icon;
     cardPath := import_path icon;
     pathCopied := copiedIs copied (pathId idx);
     dataProvider := normalizeProvider (provider icon);
     providerLabel := provider icon;
     codeModule := modulePath parts;
     codeClass := className parts;
     copyActive := copiedIs copied (copyId idx);
     onPathClick := ClickCopy (import_path icon) (pathId idx);
     onCopyClick := ClickCopy (fullImport parts) (copyId idx) |}.

(** [xs.map((x, idx) => f(x, idx))], the index counted from [i]. *)
Fixpoint mapFrom {A B} (f : A -> nat -> B) (i : nat) (xs : list A) : list B :=
  match xs with
  | [] => []
  | x :: rest => f x i :: mapFrom f (S i) rest
  end.

Inductive Glyph := SearchGlyph | KeyboardGlyph.

Inductive Body :=
| ResultsGrid (cards : list Card)
| EmptyState (glyph : Glyph) (heading hint : string).

(** The parts of the returned element that depend on the state.
    [showAllToggle] holds, when the button is there, whether it is active
    and its label; [countBadge] the number in "Showing n icons". *)
Record View := mkView {
  themeLabel : string;
  inputValue : string;
  clearButton : bool;
  showAllToggle : option (bool * string);
  countBadge : option nat;
  body : Body
}.

Definition render (icons : list Icon) (st : State) : View :=
  let filtered := filtered icons (query st) (showAll st) in
  let hasResults := (0 <? List.length filtered)%nat in
  let isSearching := (0 <? String.length (trim (query st)))%nat in
  {| themeLabel := if Theme_eqb (theme st) light then "Dark Mode" else "Light Mode";
     inputValue := query st;
     clearButton := truthy (query st);
     showAllToggle :=
       if negb isSearching
       then Some (showAll st, if showAll st then "Hide All" else "Browse All")
       else None;
     countBadge := if hasResults then Some (List.length filtered) else None;
     body :=
       if hasResults
       then ResultsGrid (mapFrom (renderCard (copied st)) 0 filtered)
       else EmptyState
              (if isSearching then SearchGlyph else KeyboardGlyph)
              (if isSearching then "No results found" else "Start typing to search")
              (if isSearching then "Try a different search term."
               else "Press Cmd+K to focus.") |}.

(** ** The theme on the document *)

Definition themeName (t : Theme) : string :=
  match t with
  | light => "light"
  | dark => "dark"
  end.

(** The mounted component together with the [data-theme] attribute of
    the document element ([None] while it is not set). *)
Record Page := mkPage {
  component : State;
  dataTheme : option string
}.

(** The "Update HTML attribute" effect. *)
Definition updateHtmlAttribute (pg : Page) : Page :=
  {| component := component pg;
     dataTheme := Some (themeName (theme (component pg))) |}.

(** What follows a state update: the effect depends on [theme] and runs
    again when the theme differs from the one of the render before. *)
Definition commit (rendered : Theme) (st : State) (attribute : option string) : Page :=
  let pg := {| component := st; dataTheme := attribute |} in
  if Theme_eqb rendered (theme st) then pg else updateHtmlAttribute pg.

(** Mounting: the first render shows the initial state, then both effects
    run in the order they are written, the second one with the theme of
    that first render; the state update of the first one is committed
    after them. *)
Definition mount (prefersDark : option bool) : Page :=
  let first := initialState in
  let updated := initTheme prefersDark first in
  let pg := updateHtmlAttribute {| component := first; dataTheme := None |} in
  commit (theme first) updated (dataTheme pg).

Definition dispatch (pg : Page) (timed : Z * Event) : Page :=
  commit (theme (component pg)) (step (component pg) timed) (dataTheme pg).

Definition session (prefersDark : option bool) (evs : list (Z * Event)) : Page :=
  fold_left dispatch evs (mount prefersDark).

(** * Vocabulary of the properties *)

(** [t] occurs in [s] as a contiguous run of code units. *)
Definition Contains (s t : string) : Prop :=
  exists pre post : string, s = (pre ++ t ++ post)%string.

Definition allWhiteSpace (s : string) : bool :=
  forallb isWhiteSpace (list_ascii_of_string s).

(** An icon matches a query when its lower-cased name or its lower-cased
    import path contains the lower-cased query. *)
Definition Matches (query : string) (icon : Icon) : Prop :=
  Contains (toLowerCase (name icon)) (toLowerCase query)
  \/ Contains (toLowerCase (import_path icon)) (toLowerCase query).

(** Two queries that differ in letter case only. *)
Definition sameUpToCase (q1 q2 : string) : Prop :=
  toLowerCase q1 = toLowerCase q2.

(** The two records of the scenario in the specification. *)
Definition iconEC2 : Icon :=
  {| name := "EC2"; import_path := "aws.compute.EC2"; provider := "aws";
     module := None; docstring := None |}.

Definition iconAKS : Icon :=
  {| name := "AKS"; import_path := "azure.compute.AKS"; provider := "azure";
     module := None; docstring := None |}.

Definition scenarioIcons : list Icon := [iconEC2; iconAKS].

(** The keywords of the classification in priority order, each group
    with its tag. *)
Definition providerKeywords : list (list string * string) :=
  [ (["aws"], "aws");
    (["azure"], "azure");
    (["gcp"; "google"], "gcp");
    (["k8s"; "kubernetes"], "k8s");
    (["alibaba"], "alibabacloud") ].

(** First group with a keyword occurring in [p] wins; none gives the
    default tag. *)
Fixpoint scanKeywords (table : list (list string * string)) (p : string) : string :=
  match table with
  | [] => "default"
  | (keywords, tag) :: rest =>
      if existsb (includes p) keywords then tag else scanKeywords rest p
  end.

(** The classification as the specification words it: the scan ignores
    letter case. *)
Definition classifyIgnoringCase (p : string) : string :=
  scanKeywords providerKeywords (toLowerCase p).

(** A pending timer whose deadline has passed at [now]. *)
Definition due (now : Z) (t : Z * Callback) : bool := (fst t <=? now)%Z.

(** The state after one press at [t0]. *)
Definition press (e : KeyboardEvent) (t0 : Z) (st : State) : State :=
  step st (t0, KeyDown e).

Definition escapeKey : KeyboardEvent :=
  {| metaKey := false; ctrlKey := false; key := "Escape" |}.

(** A session in which "lambda" was typed into the focused input and
    Escape was last pressed at 1000 ms. *)
Definition typingState : State :=
  {| query := "lambda"; copied := None; showAll := false; theme := light;
     inputRef := Some true; lastEscapeTime := 1000%Z;
     clipboard := []; timers := [] |}.

(** The session of the claim: a copy of item A at [t0], then a copy of
    item B at [t1]. *)
Definition twoCopies (textA idA textB idB : string) (t0 t1 : Z) : list (Z * Event) :=
  [(t0, ClickCopy textA idA); (t1, ClickCopy textB idB)].

(** No code unit of [s] is white space. *)
Definition noWhiteSpace (s : string) : bool :=
  forallb (fun c => negb (isWhiteSpace c)) (list_ascii_of_string s).

(** The times and the texts of the copy clicks of a session, in order. *)
Fixpoint copyTimes (evs : list (Z * Event)) : list Z :=
  match evs with
  | [] => []
  | (t, ClickCopy _ _) :: rest => t :: copyTimes rest
  | _ :: rest => copyTimes rest
  end.

Fixpoint copyTexts (evs : list (Z * Event)) : list string :=
  match evs with
  | [] => []
  | (_, ClickCopy text _) :: rest => text :: copyTexts rest
  | _ :: rest => copyTexts rest
  end.

(** The cards on the screen, none when the empty state is shown. *)
Definition cards (icons : list Icon) (st : State) : list Card :=
  match body (render icons st) with
  | ResultsGrid cs => cs
  | EmptyState _ _ _ => []
  end.

(** A card shows one of its two confirmations. *)
Definition confirms (c : Card) : bool := copyActive c || pathCopied c.

(** The tags [normalizeProvider] can give. *)
Definition providerTags : list string :=
  ["aws"; "azure"; "gcp"; "k8s"; "alibabacloud"; "default"].

(** Every keyword of the classification. *)
Definition allKeywords : list string :=
  flat_map fst providerKeywords.

(** Every pending timer was set by a copy click of the session, 2000 ms
    after it, and a confirmation on show has a timer pending. *)
Definition clearsPending (seen : list Z) (st : State) : Prop :=
  (forall d cb, In (d, cb) (timers st) -> exists tc, In tc seen /\ d = (tc + 2000)%Z)
  /\ (copied st <> None -> timers st <> []).

(** The number of clicks on the theme button in a session. *)
Fixpoint themeClicks (evs : list (Z * Event)) : nat :=
  match evs with
  | [] => 0
  | (_, ClickTheme) :: rest => S (themeClicks rest)
  | _ :: rest => themeClicks rest
  end.

Definition otherTheme (t : Theme) : Theme :=
  match t with
  | light => dark
  | dark => light
  end.

(** The attribute on the document names the theme of the component. *)
Definition mirrorsTheme (pg : Page) : Prop :=
  dataTheme pg = Some (themeName (theme (component pg))).

(** The number of clicks on the "Browse All" button in a session. *)
Fixpoint showAllClicks (evs : list (Z * Event)) : nat :=
  match evs with
  | [] => 0
  | (_, ClickShowAll) :: rest => S (showAllClicks rest)
  | _ :: rest => showAllClicks rest
  end.

(** * Properties *)

(** ** Strings *)

Section StringFacts.

Lemma append_empty_r (s : string) : (s ++ "")%string = s.
Proof. induction s as [|c s IH]; simpl; [reflexivity | now rewrite IH]. Qed.

Lemma append_assoc (a b c : string) :
  ((a ++ b) ++ c)%string = (a ++ b ++ c)%string.
Proof. induction a as [|x a IH]; simpl; [reflexivity | now rewrite IH]. Qed.

Lemma startsWith_iff (s t : string) :
  startsWith s t = true <-> exists post, s = (t ++ post)%string.
Proof.
  revert s; induction t as [|b t IH]; intros s; simpl.
  - split; [intros _; now exists s | reflexivity].
  - destruct s as [|a s].
    + split; [discriminate | intros [post H]; discriminate H].
    + rewrite andb_true_iff, Ascii.eqb_eq, IH. split.
      * intros [-> [post ->]]. now exists post.
      * intros [post H]. injection H as -> ->. split; [reflexivity | now exists post].
Qed.

Lemma includes_iff (s t : string) : includes s t = true <-> Contains s t.
Proof.
  unfold Contains. induction s as [|a s IH].
  - simpl. rewrite orb_false_r, startsWith_iff. split.
    + intros [post H]. now exists "", post.
    + intros [[|x pre] [post H]]; [now exists post | discriminate H].
  - cbn [includes]. rewrite orb_true_iff, startsWith_iff, IH. split.
    + intros [[post H] | [pre [post H]]].
      * now exists "", post.
      * exists (String a pre), post. simpl. now rewrite H.
    + intros [[|x pre] [post H]].
      * left. now exists post.
      * right. simpl in H. injection H as _ H. now exists pre, post.
Qed.

Lemma includes_false_iff (s t : string) : includes s t = false <-> ~ Contains s t.
Proof.
  rewrite <- includes_iff. destruct (includes s t); split; easy.
Qed.

Lemma includes_empty (s : string) : includes s "" = true.
Proof. destruct s; reflexivity. Qed.

Lemma lowerChar_whiteSpace (c : ascii) :
  isWhiteSpace (lowerChar c) = isWhiteSpace c.
Proof. destruct c as [[] [] [] [] [] [] [] []]; reflexivity. Qed.

Lemma lowerChar_idempotent (c : ascii) : lowerChar (lowerChar c) = lowerChar c.
Proof. destruct c as [[] [] [] [] [] [] [] []]; reflexivity. Qed.

Lemma toLowerCase_idempotent (s : string) :
  toLowerCase (toLowerCase s) = toLowerCase s.
Proof.
  induction s as [|c s IH]; simpl; [reflexivity|].
  now rewrite lowerChar_idempotent, IH.
Qed.

Lemma allWhiteSpace_toLowerCase (s : string) :
  allWhiteSpace (toLowerCase s) = allWhiteSpace s.
Proof.
  unfold allWhiteSpace. induction s as [|c s IH]; simpl; [reflexivity|].
  now rewrite lowerChar_whiteSpace, IH.
Qed.

Lemma trimStart_empty (s : string) :
  trimStart s = "" <-> allWhiteSpace s = true.
Proof.
  unfold allWhiteSpace. induction s as [|c s IH]; simpl; [easy|].
  destruct (isWhiteSpace c); simpl; [exact IH | easy].
Qed.

Lemma trimStart_head (s : string) :
  trimStart s = "" \/ exists c r, trimStart s = String c r /\ isWhiteSpace c = false.
Proof.
  induction s as [|c s IH]; simpl; [now left|].
  destruct (isWhiteSpace c) eqn:E; [exact IH | right; now exists c, s].
Qed.

Lemma trimEnd_head (c : ascii) (r : string) :
  isWhiteSpace c = false -> trimEnd (String c r) <> "".
Proof. simpl. intros ->. now destruct (trimEnd r). Qed.

(** The trimmed string is empty exactly when every code unit is white
    space. *)
Lemma trim_empty (s : string) : trim s = "" <-> allWhiteSpace s = true.
Proof.
  unfold trim. rewrite <- trimStart_empty.
  destruct (trimStart_head s) as [E | (c & r & E & W)]; rewrite E.
  - easy.
  - split; [intros H; now apply trimEnd_head in H | discriminate].
Qed.

Lemma truthy_false (s : string) : truthy s = false <-> s = "".
Proof. destruct s; simpl; easy. Qed.

Lemma truthy_trim (s : string) : truthy (trim s) = negb (allWhiteSpace s).
Proof.
  destruct (allWhiteSpace s) eqn:E; simpl.
  - apply truthy_false, trim_empty, E.
  - destruct (truthy (trim s)) eqn:T; [reflexivity|].
    apply truthy_false, trim_empty in T. congruence.
Qed.

End StringFacts.

(** ** The query engine *)

Section QueryEngine.

Variable icons : list Icon.

Lemma iconMatches_iff (query : string) (icon : Icon) :
  iconMatches (toLowerCase query) icon = true <-> Matches query icon.
Proof.
  unfold iconMatches, Matches.
  now rewrite orb_true_iff, !includes_iff.
Qed.

(** Whether the early [return []] of [filtered] is taken. *)
Lemma filtered_unfold (query : string) (showAll : bool) :
  filtered icons query showAll =
  if allWhiteSpace query && negb showAll then []
  else List.filter (iconMatches (toLowerCase query)) icons.
Proof.
  unfold filtered. rewrite truthy_trim, negb_involutive. reflexivity.
Qed.

Lemma filtered_shown (query : string) (showAll : bool) :
  trim query <> "" \/ showAll = true ->
  filtered icons query showAll = List.filter (iconMatches (toLowerCase query)) icons.
Proof.
  intros H. rewrite filtered_unfold.
  destruct (allWhiteSpace query) eqn:W, showAll; simpl; try reflexivity.
  apply trim_empty in W. destruct H; [contradiction | discriminate].
Qed.

(** Whatever the inputs, a returned record comes from the list and
    matches the query. *)
Lemma filtered_sound (query : string) (showAll : bool) (icon : Icon) :
  In icon (filtered icons query showAll) -> In icon icons /\ Matches query icon.
Proof.
  rewrite filtered_unfold.
  destruct (allWhiteSpace query && negb showAll); simpl; [easy|].
  rewrite filter_In, iconMatches_iff. easy.
Qed.

Lemma filtered_lower (showAll : bool) (q1 q2 : string) :
  sameUpToCase q1 q2 -> filtered icons q1 showAll = filtered icons q2 showAll.
Proof.
  unfold sameUpToCase. intros E. rewrite !filtered_unfold, E.
  now rewrite <- (allWhiteSpace_toLowerCase q1), E, allWhiteSpace_toLowerCase.
Qed.

End QueryEngine.

(** C1: when the trimmed query is non-empty or [showAll] is set, the
    result is the input list filtered by [Matches], order and repetitions
    kept: it equals [List.filter keep icons] for every decision procedure
    [keep] of [Matches], so a record is returned exactly when it is in the
    list and its lower-cased name or import path contains the lower-cased
    query. *)
Theorem filtered_exactly_the_matches
  (icons : list Icon) (query : string) (showAll : bool) :
  trim query <> "" \/ showAll = true ->
  (forall keep : Icon -> bool,
      (forall icon, keep icon = true <-> Matches query icon) ->
      filtered icons query showAll = List.filter keep icons)
  /\ (forall icon,
        In icon (filtered icons query showAll) <-> In icon icons /\ Matches query icon).
Proof.
  intros H. rewrite (filtered_shown icons query showAll H). split.
  - intros keep Hkeep. apply filter_ext. intros icon.
    apply eq_true_iff_eq. now rewrite iconMatches_iff, Hkeep.
  - intros icon. now rewrite filter_In, iconMatches_iff.
Qed.

Lemma filtered_exactly_the_matches_witness :
  (trim "ec" <> "" \/ false = true)
  /\ filtered scenarioIcons "ec" false = [iconEC2].
Proof.
  assert (H : trim "ec" <> "" \/ false = true) by (left; discriminate).
  split; [exact H|].
  destruct (filtered_exactly_the_matches scenarioIcons "ec" false H) as [Heq _].
  rewrite (Heq (iconMatches "ec")); [reflexivity|].
  intros icon. exact (iconMatches_iff "ec" icon).
Defined.

(** C2: with a query that is empty once trimmed and [showAll] false, the
    result is the empty sequence, whatever the icon list. *)
Theorem filtered_nothing_by_default
  (icons : list Icon) (query : string) (showAll : bool) :
  trim query = "" -> showAll = false -> filtered icons query showAll = [].
Proof.
  intros Hq ->. rewrite filtered_unfold.
  apply trim_empty in Hq. now rewrite Hq.
Qed.

Lemma filtered_nothing_by_default_witness :
  trim "  " = "" /\ false = false /\ filtered scenarioIcons "  " false = [].
Proof.
  split; [reflexivity|]. split; [reflexivity|].
  apply (filtered_nothing_by_default scenarioIcons "  " false); reflexivity.
Defined.

(** C5: the empty query with [showAll] set returns the whole input list,
    every record in its original place. *)
Theorem filtered_browse_all (icons : list Icon) : filtered icons "" true = icons.
Proof.
  rewrite filtered_unfold. simpl.
  induction icons as [|icon rest IH]; simpl; [reflexivity|].
  unfold iconMatches at 1. rewrite includes_empty. simpl. now rewrite IH.
Qed.

(** C8: the queries "AWS" and "aws" give the same result on every icon
    list and flag, and so do any two queries that are equal up to letter
    case. *)
Theorem filtered_case_insensitive :
  (forall icons showAll, filtered icons "AWS" showAll = filtered icons "aws" showAll)
  /\ (forall icons showAll q1 q2,
        sameUpToCase q1 q2 ->
        filtered icons q1 showAll = filtered icons q2 showAll).
Proof.
  split.
  - intros icons showAll. now apply filtered_lower.
  - intros icons showAll q1 q2. apply filtered_lower.
Qed.

Lemma filtered_case_insensitive_witness :
  sameUpToCase "Ec2" "eC2"
  /\ filtered scenarioIcons "Ec2" false = filtered scenarioIcons "eC2" false.
Proof.
  assert (H : sameUpToCase "Ec2" "eC2") by reflexivity.
  split; [exact H|].
  exact (proj2 filtered_case_insensitive scenarioIcons false "Ec2" "eC2" H).
Defined.

(** C9: once the trimmed query is non-empty the flag has no influence:
    the result with [showAll] set equals the result without it, and it is
    empty when no record of the list matches. *)
Theorem filtered_flag_irrelevant (icons : list Icon) (query : string) :
  trim query <> "" ->
  filtered icons query true = filtered icons query false
  /\ ((forall icon, In icon icons -> ~ Matches query icon) ->
      filtered icons query true = []).
Proof.
  intros H.
  rewrite !(filtered_shown icons query) by (now left). split; [reflexivity|].
  intros Hno. induction icons as [|icon rest IH]; simpl; [reflexivity|].
  destruct (iconMatches (toLowerCase query) icon) eqn:E.
  - apply iconMatches_iff in E. now apply Hno in E; [|left].
  - apply IH. intros i Hi. apply Hno. now right.
Qed.

Lemma filtered_flag_irrelevant_witness :
  trim "lambda" <> ""
  /\ filtered scenarioIcons "lambda" true = filtered scenarioIcons "lambda" false
  /\ filtered scenarioIcons "lambda" true = [].
Proof.
  assert (H : trim "lambda" <> "") by discriminate.
  split; [exact H|].
  destruct (filtered_flag_irrelevant scenarioIcons "lambda" H) as [Heq Hnil].
  split; [exact Heq | reflexivity].
Defined.

(** ** Class name and module path *)

Section ImportParts.

Lemma includes_dot_cons (a : ascii) (s : string) :
  includes (String a s) "." = Ascii.eqb a "." || includes s ".".
Proof. cbn [includes startsWith]. now rewrite andb_true_r. Qed.

(** A path without a dot is a single part. *)
Lemma splitFrom_no_dot (c : string) :
  includes c "." = false ->
  forall cur, splitFrom "." 0 cur c = [(cur ++ c)%string].
Proof.
  induction c as [|a c IH]; intros H cur.
  - simpl. now rewrite append_empty_r.
  - rewrite includes_dot_cons in H. apply orb_false_elim in H as [Ha Hc].
    cbn [splitFrom startsWith]. rewrite Ha. simpl.
    rewrite (IH Hc). now rewrite append_assoc.
Qed.

Lemma join_cons (sep p : string) (rest : list string) :
  rest <> [] -> join sep (p :: rest) = (p ++ sep ++ join sep rest)%string.
Proof. destruct rest; [easy | reflexivity]. Qed.

(** Splitting at the dots of [m ++ "." ++ c], where [c] has none: the
    last part is [c], and the parts before it join back to [m]. *)
Lemma splitFrom_last_dot (c : string) :
  includes c "." = false ->
  forall m cur, exists pre,
    splitFrom "." 0 cur (m ++ "." ++ c) = pre ++ [c]
    /\ pre <> []
    /\ join "." pre = (cur ++ m)%string.
Proof.
  intros Hc. induction m as [|a m IH]; intros cur.
  - exists [cur]. cbn. rewrite (splitFrom_no_dot c Hc).
    now rewrite append_empty_r.
  - change (String a m ++ "." ++ c)%string with (String a (m ++ "." ++ c)).
    cbn [splitFrom startsWith]. rewrite andb_true_r.
    destruct (Ascii.eqb_spec a ".") as [-> | Ha].
    + destruct (IH "") as (pre & E & Hne & J). cbn [String.length Nat.sub].
      exists (cur :: pre). rewrite E. split; [reflexivity|]. split; [easy|].
      rewrite (join_cons _ _ _ Hne), J. reflexivity.
    + destruct (IH (cur ++ String a "")%string) as (pre & E & Hne & J).
      exists pre. rewrite E, J, append_assoc. easy.
Qed.

Lemma nth_error_final {A} (pre : list A) (x : A) :
  nth_error (pre ++ [x]) (List.length (pre ++ [x]) - 1) = Some x.
Proof.
  rewrite length_app. simpl.
  replace (List.length pre + 1 - 1) with (List.length pre) by lia.
  rewrite nth_error_app2 by lia. now rewrite Nat.sub_diag.
Qed.

Lemma slice_without_final {A} (pre : list A) (x : A) :
  slice (pre ++ [x]) 0 (-1) = pre.
Proof.
  unfold slice, relativeIndex. rewrite length_app. simpl List.length.
  change (0 <? 0)%Z with false. change (-1 <? 0)%Z with true. cbv iota.
  replace (Z.to_nat (Z.min 0 _)) with 0 by lia.
  replace (Z.to_nat (Z.max _ 0)) with (List.length pre) by lia.
  rewrite Nat.sub_0_r. simpl skipn.
  rewrite firstn_app, firstn_all, Nat.sub_diag. simpl. apply app_nil_r.
Qed.

(** A string that has a dot splits at its last one. *)
Lemma last_dot (s : string) :
  includes s "." = true ->
  exists m c, s = (m ++ "." ++ c)%string /\ includes c "." = false.
Proof.
  induction s as [|a s IH]; [discriminate|].
  rewrite includes_dot_cons. intros H.
  destruct (includes s ".") eqn:Hs.
  - destruct (IH eq_refl) as (m & c & -> & Hc). now exists (String a m), c.
  - rewrite orb_false_r in H. apply Ascii.eqb_eq in H as ->. now exists "", s.
Qed.

End ImportParts.

(** C6: an import path [m ++ "." ++ c] whose last segment [c] has no dot
    gives class name [c] and module path [m], and every path with a dot
    has this shape; a path without a dot gives itself as the class name
    and the empty module path.  The class name is never [undefined]. *)
Theorem getImportParts_last_segment :
  (forall icon m c,
      import_path icon = (m ++ "." ++ c)%string ->
      includes c "." = false ->
      getImportParts icon = {| className := Some c; modulePath := m |})
  /\ (forall icon,
        includes (import_path icon) "." = true ->
        exists m c,
          import_path icon = (m ++ "." ++ c)%string /\ includes c "." = false)
  /\ (forall icon,
        includes (import_path icon) "." = false ->
        getImportParts icon =
        {| className := Some (import_path icon); modulePath := "" |})
  /\ getImportParts iconEC2 =
     {| className := Some "EC2"; modulePath := "aws.compute" |}.
Proof.
  split; [|split; [|split]].
  - intros icon m c E Hc. unfold getImportParts, split. rewrite E.
    destruct (splitFrom_last_dot c Hc m "") as (pre & -> & _ & J).
    now rewrite nth_error_final, slice_without_final, J.
  - intros icon. apply last_dot.
  - intros icon H. unfold getImportParts, split.
    now rewrite (splitFrom_no_dot _ H).
  - reflexivity.
Qed.

Lemma getImportParts_last_segment_witness :
  import_path iconAKS = ("azure.compute" ++ "." ++ "AKS")%string
  /\ includes "AKS" "." = false
  /\ getImportParts iconAKS =
     {| className := Some "AKS"; modulePath := "azure.compute" |}.
Proof.
  split; [reflexivity|]. split; [reflexivity|].
  apply (proj1 getImportParts_last_segment iconAKS "azure.compute" "AKS");
    reflexivity.
Defined.

(** ** Provider tags *)

(** C3, as stated, fails: the provider string is not lower-cased before
    the scan, so "Azure" gets the default tag where a scan ignoring case
    gives the azure tag. *)
Lemma normalizeProvider_Azure_default :
  (normalizeProvider "Azure" = "default"
   /\ normalizeProvider "Azure" <> "azure"
   /\ classifyIgnoringCase "Azure" = "azure")
  /\ (normalizeProvider "Google Cloud" = "default"
      /\ normalizeProvider "Google Cloud" <> "gcp"
      /\ classifyIgnoringCase "Google Cloud" = "gcp")
  /\ (normalizeProvider "Kubernetes" = "default"
      /\ normalizeProvider "Kubernetes" <> "k8s"
      /\ classifyIgnoringCase "Kubernetes" = "k8s").
Proof. repeat split; (reflexivity || discriminate). Qed.

(** C3, amended: the classification is a case-sensitive keyword scan of
    the provider string as given, in the priority order aws, azure,
    gcp/google, k8s/kubernetes, alibaba, first match winning and no match
    giving the default tag.  On a provider string without upper-case
    letters it is the scan ignoring case.  So "azure", "google cloud" and
    "kubernetes" get the azure, gcp and k8s tags, "Unknown Corp" the
    default tag, and so do "Azure", "Google Cloud" and "Kubernetes". *)
Theorem normalizeProvider_case_sensitive :
  (forall p, normalizeProvider p = scanKeywords providerKeywords p)
  /\ (forall p, toLowerCase p = p -> normalizeProvider p = classifyIgnoringCase p)
  /\ normalizeProvider "azure" = "azure"
  /\ normalizeProvider "google cloud" = "gcp"
  /\ normalizeProvider "kubernetes" = "k8s"
  /\ normalizeProvider "Unknown Corp" = "default"
  /\ normalizeProvider "Azure" = "default"
  /\ normalizeProvider "Google Cloud" = "default"
  /\ normalizeProvider "Kubernetes" = "default".
Proof.
  assert (H : forall p, normalizeProvider p = scanKeywords providerKeywords p).
  { intros p. unfold normalizeProvider, providerKeywords. simpl.
    now rewrite !orb_false_r. }
  split; [exact H|]. split.
  - intros p E. unfold classifyIgnoringCase. rewrite E. apply H.
  - repeat split; reflexivity.
Qed.

Lemma normalizeProvider_case_sensitive_witness :
  toLowerCase "alibaba cloud" = "alibaba cloud"
  /\ normalizeProvider "alibaba cloud" = classifyIgnoringCase "alibaba cloud".
Proof.
  split; [reflexivity|].
  apply (proj1 (proj2 normalizeProvider_case_sensitive) "alibaba cloud").
  reflexivity.
Defined.

(** ** Theme *)

(** C10: the toggle sends light to dark and dark to light and touches no
    other part of the state; its result is one of the two themes, and two
    toggles in a row give back the state they started from. *)
Theorem toggleTheme_involution (st : State) :
  theme (toggleTheme st) = match theme st with light => dark | dark => light end
  /\ (theme (toggleTheme st) = light \/ theme (toggleTheme st) = dark)
  /\ theme (toggleTheme (toggleTheme st)) = theme st
  /\ toggleTheme (toggleTheme st) = st.
Proof.
  destruct st as [q c a th r l cb ts]. unfold toggleTheme, setTheme. simpl.
  destruct th; simpl; repeat split; auto.
Qed.

(** ** Timers *)

Section Timers.

Lemma schedule_In (deadline : Z) (cb : Callback) (ts : list (Z * Callback))
  (x : Z * Callback) :
  In x (schedule deadline cb ts) <-> x = (deadline, cb) \/ In x ts.
Proof.
  induction ts as [|[d c] ts IH]; simpl.
  - intuition.
  - destruct (d <=? deadline)%Z; simpl; [rewrite IH|]; intuition.
Qed.

(** Firing changes [copied] only: to none, as soon as one timer is due. *)
Lemma fireDue_copied (now : Z) (ts : list (Z * Callback)) (st : State) :
  copied (fireDue now ts st) = if existsb (due now) ts then None else copied st.
Proof.
  revert st. induction ts as [|[d cb] ts IH]; intros st; simpl; [reflexivity|].
  unfold due at 1. simpl. destruct (d <=? now)%Z; simpl.
  - rewrite IH. destruct cb. simpl. now destruct (existsb (due now) ts).
  - apply IH.
Qed.

(** The timers that are not due stay pending, in their order. *)
Lemma fireDue_timers (now : Z) (ts : list (Z * Callback)) (st : State) :
  timers (fireDue now ts st) = List.filter (fun t => negb (due now t)) ts.
Proof.
  revert st. induction ts as [|[d cb] ts IH]; intros st; simpl; [reflexivity|].
  unfold due at 1. simpl. destruct (d <=? now)%Z; simpl.
  - apply IH.
  - now rewrite IH.
Qed.

(** Firing leaves every other hook as it is. *)
Lemma fireDue_frame (now : Z) (ts : list (Z * Callback)) (st : State) :
  query (fireDue now ts st) = query st
  /\ showAll (fireDue now ts st) = showAll st
  /\ theme (fireDue now ts st) = theme st
  /\ inputRef (fireDue now ts st) = inputRef st
  /\ lastEscapeTime (fireDue now ts st) = lastEscapeTime st
  /\ clipboard (fireDue now ts st) = clipboard st.
Proof.
  revert st. induction ts as [|[d cb] ts IH]; intros st; simpl; [easy|].
  destruct (d <=? now)%Z; simpl.
  - destruct cb. destruct (IH (setCopied None st)) as (? & ? & ? & ? & ? & ?).
    easy.
  - apply IH.
Qed.

Lemma copied_copyToClipboard (text id : string) (now : Z) (st : State) :
  copied (copyToClipboard text id now st) = Some id.
Proof. reflexivity. Qed.

Lemma timers_copyToClipboard (text id : string) (now : Z) (st : State) :
  timers (copyToClipboard text id now st)
  = schedule (now + 2000) ClearCopied (timers st).
Proof. reflexivity. Qed.

End Timers.

(** ** Keyboard shortcuts *)

Section Escape.

Variable e : KeyboardEvent.
Hypothesis escape : key e = "Escape".

Lemma handleKeyDown_escape (now : Z) (st : State) :
  handleKeyDown e now st =
  (setLastEscapeTime now
     (if (now - lastEscapeTime st <? 300)%Z
      then setFocus false (setQuery "" st) else st),
   false).
Proof.
  unfold handleKeyDown. rewrite escape.
  change ("Escape" =? "k")%string with false.
  change ("Escape" =? "Escape")%string with true.
  now rewrite andb_false_r.
Qed.

Lemma lastEscapeTime_press (t0 now : Z) (st : State) :
  lastEscapeTime (runTimers now (press e t0 st)) = t0.
Proof.
  unfold runTimers.
  destruct (fireDue_frame now (timers (press e t0 st)) (press e t0 st))
    as (_ & _ & _ & _ & -> & _).
  unfold press, step. cbn [fst snd handle].
  now rewrite handleKeyDown_escape.
Qed.

Lemma run_two_escapes (t0 now : Z) (st : State) :
  run [(t0, KeyDown e); (now, KeyDown e)] st =
  setLastEscapeTime now
    (if (now - lastEscapeTime (runTimers now (press e t0 st)) <? 300)%Z
     then setFocus false (setQuery "" (runTimers now (press e t0 st)))
     else runTimers now (press e t0 st)).
Proof.
  unfold run. cbn [fold_left]. fold (press e t0 st).
  unfold step at 1. cbn [fst snd handle].
  now rewrite handleKeyDown_escape.
Qed.

End Escape.

(** C7: on an Escape press at time [now], the stored time of the last
    press becomes [now]; when fewer than 300 ms have passed since the
    stored time, the query becomes empty and the search input loses the
    focus, and nothing else changes; when 300 ms or more have passed, which
    is so for the first press of a session at any clock reading from
    300 on, nothing but the stored time changes.  So of two presses in a
    row the second clears the query when it comes fewer than 300 ms after
    the first, and two presses 300 ms or more apart, the first of them
    300 ms or more after the stored time, leave query and focus alone. *)
Theorem escape_twice_clears (e : KeyboardEvent) (now : Z) (st : State) :
  key e = "Escape" ->
  lastEscapeTime (fst (handleKeyDown e now st)) = now
  /\ ((now - lastEscapeTime st < 300)%Z ->
      fst (handleKeyDown e now st) =
      setLastEscapeTime now (setFocus false (setQuery "" st))
      /\ query (fst (handleKeyDown e now st)) = ""
      /\ hasFocus (fst (handleKeyDown e now st)) = false)
  /\ ((300 <= now - lastEscapeTime st)%Z ->
      fst (handleKeyDown e now st) = setLastEscapeTime now st
      /\ query (fst (handleKeyDown e now st)) = query st
      /\ hasFocus (fst (handleKeyDown e now st)) = hasFocus st)
  /\ (lastEscapeTime st = 0%Z -> (300 <= now)%Z ->
      fst (handleKeyDown e now st) = setLastEscapeTime now st)
  /\ (forall t0, (now - t0 < 300)%Z ->
      query (run [(t0, KeyDown e); (now, KeyDown e)] st) = ""
      /\ hasFocus (run [(t0, KeyDown e); (now, KeyDown e)] st) = false)
  /\ (forall t0, (300 <= t0 - lastEscapeTime st)%Z -> (300 <= now - t0)%Z ->
      query (run [(t0, KeyDown e); (now, KeyDown e)] st) = query st
      /\ hasFocus (run [(t0, KeyDown e); (now, KeyDown e)] st) = hasFocus st).
Proof.
  intros He. rewrite (handleKeyDown_escape e He). cbn [fst].
  split; [reflexivity|]. split; [|split; [|split; [|split]]].
  - intros H. apply Z.ltb_lt in H. rewrite H. repeat split.
    unfold hasFocus. simpl. now destruct (inputRef st).
  - intros H. apply Z.ltb_ge in H. rewrite H. repeat split.
  - intros H0 H. rewrite H0, Z.sub_0_r. apply Z.ltb_ge in H. now rewrite H.
  - intros t0 H. rewrite (run_two_escapes e He).
    rewrite lastEscapeTime_press by exact He.
    apply Z.ltb_lt in H. rewrite H. split; [reflexivity|].
    unfold hasFocus. simpl. now destruct (inputRef _).
  - intros t0 H0 H. rewrite (run_two_escapes e He).
    rewrite lastEscapeTime_press by exact He.
    apply Z.ltb_ge in H. rewrite H.
    unfold press, step. cbn [fst snd handle].
    rewrite (handleKeyDown_escape e He). cbn [fst].
    destruct (fireDue_frame t0 (timers st) st) as (Hq & _ & _ & Hr & Hl & _).
    fold (runTimers t0 st) in Hq, Hr, Hl. rewrite Hl.
    apply Z.ltb_ge in H0. rewrite H0.
    set (s1 := setLastEscapeTime t0 (runTimers t0 st)).
    destruct (fireDue_frame now (timers s1) s1) as (Hq' & _ & _ & Hr' & _).
    fold (runTimers now s1) in Hq', Hr'.
    unfold hasFocus. cbn [query inputRef setLastEscapeTime].
    rewrite Hq', Hr'. unfold s1. cbn [query inputRef setLastEscapeTime].
    now rewrite Hq, Hr.
Qed.

Lemma escape_twice_clears_witness :
  key escapeKey = "Escape"
  /\ (1299 - lastEscapeTime typingState < 300)%Z
  /\ query (fst (handleKeyDown escapeKey 1299 typingState)) = ""
  /\ hasFocus (fst (handleKeyDown escapeKey 1299 typingState)) = false
  /\ (300 <= 1300 - lastEscapeTime typingState)%Z
  /\ query (fst (handleKeyDown escapeKey 1300 typingState)) = "lambda"
  /\ hasFocus (fst (handleKeyDown escapeKey 1300 typingState)) = true.
Proof.
  assert (He : key escapeKey = "Escape") by reflexivity.
  assert (Hnear : (1299 - lastEscapeTime typingState < 300)%Z) by (simpl; lia).
  assert (Hfar : (300 <= 1300 - lastEscapeTime typingState)%Z) by (simpl; lia).
  destruct (escape_twice_clears escapeKey 1299 typingState He)
    as (_ & Hclear & _).
  destruct (Hclear Hnear) as (_ & Hq & Hf).
  destruct (escape_twice_clears escapeKey 1300 typingState He)
    as (_ & _ & Hkeep & _).
  destruct (Hkeep Hfar) as (_ & Hq' & Hf').
  repeat split; assumption.
Defined.

(** ** Copy confirmation *)

(** C4, as stated, fails: card 0 is copied at 1000 ms and card 1 at
    2000 ms; at 3000 ms the timer of the first copy fires and the
    confirmation of card 1 is gone, one second before its own timer, still
    pending, is due. *)
Lemma copied_card_1_erased :
  copied (run (twoCopies "from aws.compute import EC2" "card-0"
                         "from azure.compute import AKS" "card-1" 1000 2000)
              initialState) = Some "card-1"
  /\ copied (runTimers 3000
               (run (twoCopies "from aws.compute import EC2" "card-0"
                               "from azure.compute import AKS" "card-1" 1000 2000)
                    initialState)) <> Some "card-1"
  /\ timers (runTimers 3000
               (run (twoCopies "from aws.compute import EC2" "card-0"
                               "from azure.compute import AKS" "card-1" 1000 2000)
                    initialState)) = [(4000%Z, ClearCopied)].
Proof. repeat split. discriminate. Qed.

(** C4, amended: a copy of A sets [copied] to A, and a copy of B before
    A's 2000 ms have passed sets it to B at once; when A's timer fires,
    [copied] becomes none whatever it holds, B's confirmation included,
    also while B's own timer is still pending. *)
Theorem copied_cleared_by_earlier_timer
  (st : State) (textA idA textB idB : string) (t0 t1 t : Z) :
  (t0 <= t1 < t0 + 2000)%Z ->
  (t0 + 2000 <= t)%Z ->
  copied (run [(t0, ClickCopy textA idA)] st) = Some idA
  /\ copied (run (twoCopies textA idA textB idB t0 t1) st) = Some idB
  /\ copied (runTimers t (run (twoCopies textA idA textB idB t0 t1) st)) = None
  /\ ((t < t1 + 2000)%Z ->
      In ((t1 + 2000)%Z, ClearCopied)
         (timers (runTimers t (run (twoCopies textA idA textB idB t0 t1) st)))).
Proof.
  intros H1 H2. unfold twoCopies, run. simpl. unfold step, handle. simpl.
  split; [reflexivity|]. split; [reflexivity|].
  set (s1 := copyToClipboard textA idA t0 (runTimers t0 st)).
  set (s2 := copyToClipboard textB idB t1 (runTimers t1 s1)).
  assert (HA : In ((t0 + 2000)%Z, ClearCopied) (timers s2)).
  { unfold s2. rewrite timers_copyToClipboard. apply schedule_In. right.
    unfold runTimers. rewrite fireDue_timers. apply filter_In. split.
    - unfold s1. rewrite timers_copyToClipboard. apply schedule_In. now left.
    - unfold due. simpl. apply negb_true_iff, Z.leb_gt. lia. }
  assert (HB : In ((t1 + 2000)%Z, ClearCopied) (timers s2)).
  { unfold s2. rewrite timers_copyToClipboard. apply schedule_In. now left. }
  unfold runTimers. rewrite fireDue_copied, fireDue_timers. split.
  - replace (existsb (due t) (timers s2)) with true; [reflexivity|].
    symmetry. apply existsb_exists. eexists. split; [exact HA|].
    unfold due. simpl. apply Z.leb_le. lia.
  - intros H3. apply filter_In. split; [exact HB|].
    unfold due. simpl. apply negb_true_iff, Z.leb_gt. lia.
Qed.

Lemma copied_cleared_by_earlier_timer_witness :
  (1000 <= 2000 < 1000 + 2000)%Z
  /\ (1000 + 2000 <= 3500)%Z
  /\ copied (runTimers 3500
               (run (twoCopies "aws.compute.EC2" "path-0"
                               "azure.compute.AKS" "path-1" 1000 2000)
                    initialState)) = None.
Proof.
  assert (H1 : (1000 <= 2000 < 1000 + 2000)%Z) by lia.
  assert (H2 : (1000 + 2000 <= 3500)%Z) by lia.
  split; [exact H1|]. split; [exact H2|].
  exact (proj1 (proj2 (proj2
    (copied_cleared_by_earlier_timer initialState "aws.compute.EC2" "path-0"
       "azure.compute.AKS" "path-1" 1000 2000 3500 H1 H2)))).
Defined.

(** * Further properties *)

(** ** Splitting and joining *)

Section SplitJoin.







End SplitJoin.



(** ** More on the query engine *)

Section Narrowing.





Lemma noWhiteSpace_app (a b : string) :
  noWhiteSpace (a ++ b) = noWhiteSpace a && noWhiteSpace b.
Proof.
  unfold noWhiteSpace. induction a as [|x a IH]; simpl; [reflexivity|].
  now rewrite IH, andb_assoc.
Qed.

Lemma noWhiteSpace_toLowerCase (s : string) :
  noWhiteSpace (toLowerCase s) = noWhiteSpace s.
Proof.
  unfold noWhiteSpace. induction s as [|c s IH]; simpl; [reflexivity|].
  now rewrite lowerChar_whiteSpace, IH.
Qed.

Lemma noWhiteSpace_Contains (s t : string) :
  Contains s t -> noWhiteSpace s = true -> noWhiteSpace t = true.
Proof.
  intros (pre & post & ->). rewrite !noWhiteSpace_app, !andb_true_iff. tauto.
Qed.


Lemma filter_none {A} (f : A -> bool) (l : list A) :
  (forall x, In x l -> f x = false) -> List.filter f l = [].
Proof.
  induction l as [|x l IH]; intros H; simpl; [reflexivity|].
  rewrite (H x (or_introl eq_refl)). apply IH. intros y Hy. apply H. now right.
Qed.

Lemma filter_all {A} (f : A -> bool) (l : list A) :
  (forall x, In x l -> f x = true) -> List.filter f l = l.
Proof.
  induction l as [|x l IH]; intros H; simpl; [reflexivity|].
  rewrite (H x (or_introl eq_refl)). f_equal. apply IH. intros y Hy.
  apply H. now right.
Qed.

End Narrowing.





(** X4: the query is matched as typed, white space included: when no
    name and no import path of the list has a white-space code unit, a
    query with one gives the empty result, whatever the flag. *)
Theorem filtered_padded_query_finds_nothing
  (icons : list Icon) (query : string) (showAll : bool) :
  (forall icon, In icon icons ->
     noWhiteSpace (name icon) = true /\ noWhiteSpace (import_path icon) = true) ->
  noWhiteSpace query = false ->
  filtered icons query showAll = [].
Proof.
  intros Hicons Hq. rewrite filtered_unfold.
  destruct (allWhiteSpace query && negb showAll); [reflexivity|].
  apply filter_none. intros icon Hin.
  destruct (iconMatches (toLowerCase query) icon) eqn:E; [|reflexivity].
  apply iconMatches_iff in E. destruct (Hicons icon Hin) as [Hn Hp].
  rewrite <- noWhiteSpace_toLowerCase in Hn, Hp, Hq.
  destruct E as [E | E]; apply noWhiteSpace_Contains in E; congruence.
Qed.

Lemma filtered_padded_query_finds_nothing_witness :
  (forall icon, In icon scenarioIcons ->
     noWhiteSpace (name icon) = true /\ noWhiteSpace (import_path icon) = true)
  /\ noWhiteSpace "ec2 " = false
  /\ filtered scenarioIcons "ec2 " true = [].
Proof.
  assert (H : forall icon, In icon scenarioIcons ->
     noWhiteSpace (name icon) = true /\ noWhiteSpace (import_path icon) = true).
  { intros icon [<- | [<- | []]]; split; reflexivity. }
  assert (Hq : noWhiteSpace "ec2 " = false) by reflexivity.
  split; [exact H|]. split; [exact Hq|].
  exact (filtered_padded_query_finds_nothing scenarioIcons "ec2 " true H Hq).
Defined.

(** ** More on the provider tags *)

Lemma normalizeProvider_default_existsb (p : string) :
  normalizeProvider p = "default" <-> existsb (includes p) allKeywords = false.
Proof.
  unfold normalizeProvider, allKeywords. simpl.
  destruct (includes p "aws"), (includes p "azure"), (includes p "gcp"),
    (includes p "google"), (includes p "k8s"), (includes p "kubernetes"),
    (includes p "alibaba"); simpl; split; (reflexivity || discriminate).
Qed.

(** X5: the tag is always one of aws, azure, gcp, k8s, alibabacloud and
    default; each of these six is its own tag, so classifying a tag again
    changes nothing. *)
Theorem normalizeProvider_idempotent :
  (forall p, In (normalizeProvider p) providerTags)
  /\ (forall tag, In tag providerTags -> normalizeProvider tag = tag)
  /\ (forall p, normalizeProvider (normalizeProvider p) = normalizeProvider p).
Proof.
  assert (Hrange : forall p, In (normalizeProvider p) providerTags).
  { intros p. unfold normalizeProvider, providerTags.
    destruct (includes p "aws"); [simpl; tauto|].
    destruct (includes p "azure"); [simpl; tauto|].
    destruct (includes p "gcp" || includes p "google"); [simpl; tauto|].
    destruct (includes p "k8s" || includes p "kubernetes"); [simpl; tauto|].
    destruct (includes p "alibaba"); simpl; tauto. }
  assert (Hfix : forall tag, In tag providerTags -> normalizeProvider tag = tag).
  { intros tag H. simpl in H.
    repeat (destruct H as [<- | H]; [reflexivity|]). contradiction. }
  split; [exact Hrange|]. split; [exact Hfix|].
  intros p. apply Hfix, Hrange.
Qed.

Lemma normalizeProvider_idempotent_witness :
  In "alibabacloud" providerTags
  /\ normalizeProvider "alibabacloud" = "alibabacloud".
Proof.
  assert (H : In "alibabacloud" providerTags) by (simpl; tauto).
  split; [exact H|].
  exact (proj1 (proj2 normalizeProvider_idempotent) "alibabacloud" H).
Defined.

(** X6: a provider string gets the aws tag exactly when "aws" occurs
    somewhere in it, whatever else occurs, and the default tag exactly
    when none of the seven keywords occurs in it. *)
Theorem normalizeProvider_by_occurrence (p : string) :
  (normalizeProvider p = "aws" <-> Contains p "aws")
  /\ (normalizeProvider p = "default" <->
      forall keyword, In keyword allKeywords -> ~ Contains p keyword).
Proof.
  split.
  - rewrite <- includes_iff. unfold normalizeProvider.
    destruct (includes p "aws"); [easy|].
    destruct (includes p "azure"); [easy|].
    destruct (includes p "gcp" || includes p "google"); [easy|].
    destruct (includes p "k8s" || includes p "kubernetes"); [easy|].
    destruct (includes p "alibaba"); easy.
  - rewrite normalizeProvider_default_existsb. split.
    + intros H keyword Hin Hc. apply includes_iff in Hc.
      assert (E : existsb (includes p) allKeywords = true)
        by (apply existsb_exists; now exists keyword).
      congruence.
    + intros H. destruct (existsb (includes p) allKeywords) eqn:E; [|reflexivity].
      apply existsb_exists in E as (keyword & Hin & Hc).
      apply includes_iff in Hc. now apply H in Hc.
Qed.

Lemma normalizeProvider_by_occurrence_witness :
  Contains "in-laws" "aws" /\ normalizeProvider "in-laws" = "aws".
Proof.
  assert (H : Contains "in-laws" "aws") by (now exists "in-l", "").
  split; [exact H|].
  exact (proj2 (proj1 (normalizeProvider_by_occurrence "in-laws")) H).
Defined.

(** ** More on the keyboard shortcuts *)

Section KeyDown.

Variables (e : KeyboardEvent) (now : Z) (st : State).

(** What [handleKeyDown] never writes. *)
Lemma handleKeyDown_untouched :
  copied (fst (handleKeyDown e now st)) = copied st
  /\ showAll (fst (handleKeyDown e now st)) = showAll st
  /\ theme (fst (handleKeyDown e now st)) = theme st
  /\ clipboard (fst (handleKeyDown e now st)) = clipboard st
  /\ timers (fst (handleKeyDown e now st)) = timers st.
Proof.
  unfold handleKeyDown.
  destruct ((metaKey e || ctrlKey e) && (key e =? "k")%string);
    destruct (key e =? "Escape")%string; simpl;
    try destruct (_ <? 300)%Z; simpl; repeat split.
Qed.

End KeyDown.

(** X7: on any key event, [preventDefault] is called exactly when Meta
    or Control is held and the key is the lower-case "k"; then the search
    input gets the focus and nothing else changes.  A key that is neither
    that shortcut nor Escape changes nothing at all, the upper-case "K"
    with a modifier included.  No key event changes the confirmation, the
    flag, the theme, the clipboard or the timers, and the query is kept or
    emptied. *)
Theorem handleKeyDown_shortcuts (e : KeyboardEvent) (now : Z) (st : State) :
  (snd (handleKeyDown e now st) = true <->
   (metaKey e = true \/ ctrlKey e = true) /\ key e = "k")
  /\ ((metaKey e = true \/ ctrlKey e = true) -> key e = "k" ->
      handleKeyDown e now st = (setFocus true st, true))
  /\ (~ ((metaKey e = true \/ ctrlKey e = true) /\ key e = "k") ->
      key e <> "Escape" ->
      handleKeyDown e now st = (st, false))
  /\ (key e = "K" -> handleKeyDown e now st = (st, false))
  /\ (copied (fst (handleKeyDown e now st)) = copied st
      /\ showAll (fst (handleKeyDown e now st)) = showAll st
      /\ theme (fst (handleKeyDown e now st)) = theme st
      /\ clipboard (fst (handleKeyDown e now st)) = clipboard st
      /\ timers (fst (handleKeyDown e now st)) = timers st)
  /\ (query (fst (handleKeyDown e now st)) = query st
      \/ query (fst (handleKeyDown e now st)) = "").
Proof.
  split; [|split; [|split; [|split; [|split]]]].
  - unfold handleKeyDown.
    destruct ((metaKey e || ctrlKey e) && (key e =? "k")%string) eqn:E; simpl.
    + apply andb_true_iff in E as [Hm Hk]. apply orb_true_iff in Hm.
      apply String.eqb_eq in Hk. tauto.
    + split; [discriminate|]. intros [Hm Hk].
      apply orb_true_iff in Hm. apply String.eqb_eq in Hk.
      rewrite Hm, Hk in E. discriminate.
  - intros Hm Hk. apply orb_true_iff in Hm. unfold handleKeyDown.
    rewrite Hm, Hk. reflexivity.
  - intros Hno Hesc. unfold handleKeyDown.
    apply String.eqb_neq in Hesc. rewrite Hesc.
    destruct ((metaKey e || ctrlKey e) && (key e =? "k")%string) eqn:E;
      [|reflexivity].
    apply andb_true_iff in E as [Hm Hk]. apply orb_true_iff in Hm.
    apply String.eqb_eq in Hk. tauto.
  - intros Hk. unfold handleKeyDown. rewrite Hk. simpl.
    now rewrite andb_false_r.
  - apply handleKeyDown_untouched.
  - unfold handleKeyDown.
    destruct ((metaKey e || ctrlKey e) && (key e =? "k")%string);
      destruct (key e =? "Escape")%string; simpl;
      try destruct (_ <? 300)%Z; simpl; tauto.
Qed.

Lemma handleKeyDown_shortcuts_witness :
  (metaKey (mkKeyboardEvent false true "k") = true
   \/ ctrlKey (mkKeyboardEvent false true "k") = true)
  /\ key (mkKeyboardEvent false true "k") = "k"
  /\ handleKeyDown (mkKeyboardEvent false true "k") 5000 typingState
     = (setFocus true typingState, true)
  /\ key (mkKeyboardEvent false true "K") = "K"
  /\ handleKeyDown (mkKeyboardEvent false true "K") 5000 typingState
     = (typingState, false).
Proof.
  assert (Hm : metaKey (mkKeyboardEvent false true "k") = true
               \/ ctrlKey (mkKeyboardEvent false true "k") = true)
    by (now right).
  assert (Hk : key (mkKeyboardEvent false true "k") = "k") by reflexivity.
  assert (HK : key (mkKeyboardEvent false true "K") = "K") by reflexivity.
  split; [exact Hm|]. split; [exact Hk|]. split.
  - exact (proj1 (proj2
      (handleKeyDown_shortcuts (mkKeyboardEvent false true "k") 5000 typingState))
      Hm Hk).
  - split; [exact HK|].
    exact (proj1 (proj2 (proj2 (proj2
      (handleKeyDown_shortcuts (mkKeyboardEvent false true "K") 5000 typingState))))
      HK).
Defined.

(** ** Sessions *)

Section Sessions.

Lemma existsb_false_filter {A} (f : A -> bool) (l : list A) :
  existsb f l = false -> List.filter (fun x => negb (f x)) l = l.
Proof.
  induction l as [|x l IH]; simpl; [reflexivity|].
  intros H. apply orb_false_elim in H as [Hx Hl]. rewrite Hx. simpl.
  now rewrite IH.
Qed.

Lemma clipboard_step (st : State) (t : Z) (ev : Event) :
  clipboard (step st (t, ev)) =
  match ev with
  | ClickCopy text _ => text :: clipboard st
  | _ => clipboard st
  end.
Proof.
  unfold step. cbn [fst snd].
  destruct (fireDue_frame t (timers st) st) as (_ & _ & _ & _ & _ & Hc).
  fold (runTimers t st) in Hc.
  destruct ev; cbn [handle]; try (simpl; exact Hc).
  - destruct (handleKeyDown_untouched e t (runTimers t st))
      as (_ & _ & _ & -> & _). exact Hc.
  - simpl. now rewrite Hc.
Qed.

Lemma clipboard_run (evs : list (Z * Event)) :
  forall st, clipboard (run evs st) = rev (copyTexts evs) ++ clipboard st.
Proof.
  induction evs as [|[t ev] evs IH]; intros st; [reflexivity|].
  change (run ((t, ev) :: evs) st) with (run evs (step st (t, ev))).
  rewrite IH, clipboard_step.
  destruct ev; try reflexivity.
  simpl. now rewrite <- app_assoc.
Qed.

Lemma clearsPending_runTimers (seen : list Z) (t : Z) (st : State) :
  clearsPending seen st -> clearsPending seen (runTimers t st).
Proof.
  intros [Hd Hc]. unfold clearsPending, runTimers.
  rewrite fireDue_timers, fireDue_copied. split.
  - intros d cb Hin. apply filter_In in Hin as [Hin _]. exact (Hd d cb Hin).
  - fold (due t). destruct (existsb (due t) (timers st)) eqn:E; [easy|].
    intros Hcop. change (fun t0 => negb (due t t0)) with (fun x => negb (due t x)).
    rewrite (existsb_false_filter _ _ E). now apply Hc.
Qed.

Lemma clearsPending_more (seen more : list Z) (st : State) :
  clearsPending seen st -> clearsPending (seen ++ more) st.
Proof.
  intros [Hd Hc]. split; [|exact Hc].
  intros d cb Hin. destruct (Hd d cb Hin) as (tc & Htc & ->).
  exists tc. split; [apply in_or_app; now left | reflexivity].
Qed.

Lemma clearsPending_step (seen : list Z) (st : State) (t : Z) (ev : Event) :
  clearsPending seen st ->
  clearsPending (seen ++ copyTimes [(t, ev)]) (step st (t, ev)).
Proof.
  intros H. apply (clearsPending_runTimers seen t) in H.
  unfold step. cbn [fst snd]. set (s := runTimers t st) in *.
  destruct ev; cbn [handle];
    try (apply clearsPending_more; destruct H as [Hd Hc]; split; simpl; assumption).
  - apply clearsPending_more. destruct H as [Hd Hc].
    destruct (handleKeyDown_untouched e t s) as (E1 & _ & _ & _ & E2).
    unfold clearsPending. rewrite E1, E2. now split.
  - destruct H as [Hd Hc]. split.
    + intros d cb Hin. simpl in Hin. apply schedule_In in Hin as [Hin | Hin].
      * assert (Ed : d = (t + 2000)%Z) by congruence.
        exists t. split; [|exact Ed].
        apply in_or_app. right. simpl. now left.
      * destruct (Hd d cb Hin) as (tc & Htc & ->). exists tc.
        split; [apply in_or_app; now left | reflexivity].
    + intros _ E.
      assert (Hin : In ((t + 2000)%Z, ClearCopied)
                       (timers (copyToClipboard text id t s)))
        by (apply schedule_In; now left).
      rewrite E in Hin. contradiction.
Qed.

Lemma copyTimes_cons (x : Z * Event) (evs : list (Z * Event)) :
  copyTimes (x :: evs) = copyTimes [x] ++ copyTimes evs.
Proof. destruct x as [t []]; reflexivity. Qed.

Lemma clearsPending_run (evs : list (Z * Event)) :
  forall seen st,
    clearsPending seen st -> clearsPending (seen ++ copyTimes evs) (run evs st).
Proof.
  induction evs as [|[t ev] evs IH]; intros seen st H.
  - simpl. now rewrite app_nil_r.
  - change (run ((t, ev) :: evs) st) with (run evs (step st (t, ev))).
    rewrite copyTimes_cons, app_assoc. apply IH. now apply clearsPending_step.
Qed.

End Sessions.

(** X8: in a session started from the initial state, whatever its events
    and their times, no confirmation is left once 2000 ms have passed
    since every copy click: the timers due by then have emptied
    [copied]. *)
Theorem copied_cleared_in_time (evs : list (Z * Event)) (t : Z) :
  (forall tc, In tc (copyTimes evs) -> (tc + 2000 <= t)%Z) ->
  copied (runTimers t (run evs initialState)) = None.
Proof.
  intros Hlate.
  assert (H0 : clearsPending [] initialState) by (split; simpl; easy).
  apply (clearsPending_run evs) in H0. simpl in H0. destruct H0 as [Hd Hc].
  unfold runTimers. rewrite fireDue_copied.
  destruct (existsb (due t) (timers (run evs initialState))) eqn:E; [reflexivity|].
  destruct (copied (run evs initialState)) as [id|] eqn:C; [|reflexivity].
  exfalso. assert (Hne : timers (run evs initialState) <> []) by (now apply Hc).
  destruct (timers (run evs initialState)) as [|[d cb] ts] eqn:T; [easy|].
  destruct (Hd d cb (or_introl eq_refl)) as (tc & Htc & ->).
  simpl in E. apply orb_false_elim in E as [E _].
  unfold due in E. simpl in E. apply Z.leb_gt in E.
  specialize (Hlate tc Htc). lia.
Qed.

Lemma copied_cleared_in_time_witness :
  (forall tc,
      In tc (copyTimes [(1000, ClickCopy "aws.compute.EC2" "path-0");
                        (1200, InputChange "a");
                        (2500, ClickCopy "from azure.compute import AKS" "card-0")]%Z) ->
      (tc + 2000 <= 4500)%Z)
  /\ copied (runTimers 4500
               (run [(1000, ClickCopy "aws.compute.EC2" "path-0");
                     (1200, InputChange "a");
                     (2500, ClickCopy "from azure.compute import AKS" "card-0")]%Z
                    initialState)) = None.
Proof.
  assert (H : forall tc,
      In tc (copyTimes [(1000, ClickCopy "aws.compute.EC2" "path-0");
                        (1200, InputChange "a");
                        (2500, ClickCopy "from azure.compute import AKS" "card-0")]%Z) ->
      (tc + 2000 <= 4500)%Z).
  { intros tc [<- | [<- | []]]; lia. }
  split; [exact H|].
  exact (copied_cleared_in_time _ 4500 H).
Defined.

(** X9: the texts handed to the clipboard in a session are the texts of
    its copy clicks, the latest first, ahead of what was written before;
    no other event and no timer writes to the clipboard. *)
Theorem clipboard_log (evs : list (Z * Event)) (st : State) :
  clipboard (run evs st) = rev (copyTexts evs) ++ clipboard st.
Proof. apply clipboard_run. Qed.

(** ** The results grid *)

Section Grid.

Lemma indexToString_inj (i j : nat) : indexToString i = indexToString j -> i = j.
Proof.
  unfold indexToString. intros H. apply Unsigned.to_uint_inj.
  assert (E : Some (Nat.to_uint i) = Some (Nat.to_uint j))
    by (rewrite <- !NilEmpty.usu; now rewrite H).
  congruence.
Qed.

Lemma copyId_inj (i j : nat) : copyId i = copyId j -> i = j.
Proof.
  unfold copyId. cbn [append]. intros H. injection H as H.
  now apply indexToString_inj.
Qed.

Lemma pathId_inj (i j : nat) : pathId i = pathId j -> i = j.
Proof.
  unfold pathId. cbn [append]. intros H. injection H as H.
  now apply indexToString_inj.
Qed.

Lemma copyId_pathId (i j : nat) : copyId i <> pathId j.
Proof. unfold copyId, pathId. cbn [append]. discriminate. Qed.

Lemma copiedIs_iff (copied : option string) (id : string) :
  copiedIs copied id = true <-> copied = Some id.
Proof.
  destruct copied as [c|]; simpl; [|easy].
  rewrite String.eqb_eq. split; congruence.
Qed.

Lemma nth_error_mapFrom {A B} (f : A -> nat -> B) (xs : list A) :
  forall i k, nth_error (mapFrom f i xs) k
              = option_map (fun x => f x (i + k)) (nth_error xs k).
Proof.
  induction xs as [|x xs IH]; intros i k.
  - now destruct k.
  - destruct k as [|k]; simpl.
    + now rewrite Nat.add_0_r.
    + rewrite IH. now rewrite Nat.add_succ_r.
Qed.

Lemma map_mapFrom {A B C} (f : A -> nat -> B) (g : B -> C) (h : A -> C)
  (xs : list A) :
  (forall x i, g (f x i) = h x) ->
  forall i, map g (mapFrom f i xs) = map h xs.
Proof.
  intros H. induction xs as [|x xs IH]; intros i; simpl; [reflexivity|].
  now rewrite H, IH.
Qed.

Lemma length_mapFrom {A B} (f : A -> nat -> B) (xs : list A) :
  forall i, List.length (mapFrom f i xs) = List.length xs.
Proof. induction xs as [|x xs IH]; intros i; simpl; [reflexivity | now rewrite IH]. Qed.

(** The grid has a card for each result, the empty state standing for
    no card. *)
Lemma cards_mapFrom (icons : list Icon) (st : State) :
  cards icons st
  = mapFrom (renderCard (copied st)) 0 (filtered icons (query st) (showAll st)).
Proof.
  unfold cards, render. cbn [body].
  now destruct (filtered icons (query st) (showAll st)).
Qed.

Lemma nth_error_cards (icons : list Icon) (st : State) (i : nat) :
  nth_error (cards icons st) i
  = option_map (fun icon => renderCard (copied st) icon i)
      (nth_error (filtered icons (query st) (showAll st)) i).
Proof. rewrite cards_mapFrom. apply nth_error_mapFrom. Qed.

Lemma getImportParts_dotted (icon : Icon) (m c : string) :
  import_path icon = (m ++ "." ++ c)%string ->
  includes c "." = false ->
  getImportParts icon = {| className := Some c; modulePath := m |}.
Proof.
  intros E Hc. unfold getImportParts, split. rewrite E.
  destruct (splitFrom_last_dot c Hc m "") as (pre & -> & _ & J).
  now rewrite nth_error_final, slice_without_final, J.
Qed.

Lemma getImportParts_dotless (icon : Icon) :
  includes (import_path icon) "." = false ->
  getImportParts icon
  = {| className := Some (import_path icon); modulePath := "" |}.
Proof.
  intros H. unfold getImportParts, split. now rewrite (splitFrom_no_dot _ H).
Qed.

Lemma length_filter_le {A} (f : A -> bool) (l : list A) :
  List.length (List.filter f l) <= List.length l.
Proof.
  induction l as [|x l IH]; simpl; [lia|]. destruct (f x); simpl; lia.
Qed.

Lemma length_filtered_le (icons : list Icon) (q : string) (b : bool) :
  List.length (filtered icons q b) <= List.length icons.
Proof.
  rewrite filtered_unfold. destruct (allWhiteSpace q && negb b); simpl;
    [lia | apply length_filter_le].
Qed.

End Grid.

(** X10: the card at position [i] shows its check mark exactly when
    [copied] is "card-i" and its "Copied!" note exactly when [copied] is
    "path-i", whichever icon stands there; so at most one card of the grid
    shows a confirmation, and no card shows both of its own. *)
Theorem one_confirmation_on_screen (icons : list Icon) (st : State) :
  (forall i card,
      nth_error (cards icons st) i = Some card ->
      (copyActive card = true <-> copied st = Some (copyId i))
      /\ (pathCopied card = true <-> copied st = Some (pathId i))
      /\ copyActive card && pathCopied card = false)
  /\ (forall i j ci cj,
        nth_error (cards icons st) i = Some ci ->
        nth_error (cards icons st) j = Some cj ->
        confirms ci = true -> confirms cj = true -> i = j).
Proof.
  assert (H : forall i card,
      nth_error (cards icons st) i = Some card ->
      copyActive card = copiedIs (copied st) (copyId i)
      /\ pathCopied card = copiedIs (copied st) (pathId i)).
  { intros i card E. rewrite nth_error_cards in E.
    destruct (nth_error _ i); [|discriminate]. injection E as <-. now split. }
  split.
  - intros i card E. destruct (H i card E) as [-> ->].
    rewrite <- !copiedIs_iff. repeat split; try tauto.
    destruct (copiedIs (copied st) (copyId i)) eqn:A; [|reflexivity].
    destruct (copiedIs (copied st) (pathId i)) eqn:B; [|reflexivity].
    apply copiedIs_iff in A, B. rewrite A in B.
    exfalso. apply (copyId_pathId i i). congruence.
  - intros i j ci cj Ei Ej. unfold confirms.
    destruct (H i ci Ei) as [-> ->]. destruct (H j cj Ej) as [-> ->].
    rewrite !orb_true_iff, !copiedIs_iff.
    intros [A | A] [B | B]; rewrite A in B.
    + apply copyId_inj. congruence.
    + exfalso. apply (copyId_pathId i j). congruence.
    + exfalso. apply (copyId_pathId j i). congruence.
    + apply pathId_inj. congruence.
Qed.

Lemma one_confirmation_on_screen_witness :
  nth_error (cards scenarioIcons
               (copyToClipboard "azure.compute.AKS" "path-1" 1000
                  (setShowAll true initialState))) 1
  = Some (renderCard (Some "path-1") iconAKS 1)
  /\ pathCopied (renderCard (Some "path-1") iconAKS 1) = true
  /\ copied (copyToClipboard "azure.compute.AKS" "path-1" 1000
               (setShowAll true initialState)) = Some (pathId 1).
Proof.
  assert (E : nth_error (cards scenarioIcons
               (copyToClipboard "azure.compute.AKS" "path-1" 1000
                  (setShowAll true initialState))) 1
              = Some (renderCard (Some "path-1") iconAKS 1)) by reflexivity.
  assert (P : pathCopied (renderCard (Some "path-1") iconAKS 1) = true)
    by reflexivity.
  split; [exact E|]. split; [exact P|].
  exact (proj1 (proj1 (proj2
    (proj1 (one_confirmation_on_screen scenarioIcons _) 1 _ E))) P).
Defined.

(** X11: a click on the copy button of the card at position [i] hands
    "from m import c" to the clipboard when the icon's import path is
    [m ++ "." ++ c] with no dot in [c], and "from  import p" when the path
    [p] has no dot; a click on the path hands over the import path as it
    is.  After the click on the button the check mark is on card [i] and on
    no other card, and no card shows the "Copied!" note. *)
Theorem copy_button_click
  (icons : list Icon) (st : State) (now : Z) (i : nat) (card : Card) :
  nth_error (cards icons st) i = Some card ->
  exists icon,
    nth_error (filtered icons (query st) (showAll st)) i = Some icon
    /\ (forall m c,
          import_path icon = (m ++ "." ++ c)%string ->
          includes c "." = false ->
          clipboard (handle (onCopyClick card) now st)
          = ("from " ++ m ++ " import " ++ c)%string :: clipboard st)
    /\ (includes (import_path icon) "." = false ->
        clipboard (handle (onCopyClick card) now st)
        = ("from  import " ++ import_path icon)%string :: clipboard st)
    /\ clipboard (handle (onPathClick card) now st)
       = import_path icon :: clipboard st
    /\ (forall j cj,
          nth_error (cards icons (handle (onCopyClick card) now st)) j = Some cj ->
          (copyActive cj = true <-> j = i) /\ pathCopied cj = false).
Proof.
  intros E. rewrite nth_error_cards in E.
  destruct (nth_error (filtered icons (query st) (showAll st)) i) as [icon|] eqn:F;
    [|discriminate].
  injection E as <-. exists icon. split; [reflexivity|].
  cbn [onCopyClick onPathClick renderCard handle].
  split; [|split; [|split]].
  - intros m c Hp Hc. rewrite (getImportParts_dotted icon m c Hp Hc). reflexivity.
  - intros Hp. rewrite (getImportParts_dotless icon Hp). reflexivity.
  - reflexivity.
  - intros j cj Ej. rewrite nth_error_cards in Ej.
    cbn [copyToClipboard setTimeout setTimers setCopied writeText query showAll copied] in Ej.
    destruct (nth_error (filtered icons (query st) (showAll st)) j); [|discriminate].
    injection Ej as <-. cbn [copyActive pathCopied renderCard copiedIs].
    split.
    + rewrite String.eqb_eq. split; [intros H | intros ->; reflexivity].
      symmetry. now apply copyId_inj.
    + apply String.eqb_neq. apply copyId_pathId.
Qed.

Lemma copy_button_click_witness :
  nth_error (cards scenarioIcons (setShowAll true initialState)) 0
  = Some (renderCard None iconEC2 0)
  /\ exists icon,
       nth_error (filtered scenarioIcons "" true) 0 = Some icon
       /\ clipboard (handle (onPathClick (renderCard None iconEC2 0)) 1000
                       (setShowAll true initialState))
          = [import_path icon].
Proof.
  assert (E : nth_error (cards scenarioIcons (setShowAll true initialState)) 0
              = Some (renderCard None iconEC2 0)) by reflexivity.
  split; [exact E|].
  destruct (copy_button_click scenarioIcons (setShowAll true initialState)
              1000 0 _ E) as (icon & Hi & _ & _ & Hp & _).
  exists icon. split; [exact Hi | exact Hp].
Defined.

(** X12: the grid is never empty and the badge never counts zero: when
    there are results the body is the grid, with one card per result in
    the order of the results, each with the name, import path and provider
    of its icon, and the badge counts the cards, at most as many as there
    are icons; when there are none the body is the empty state and there
    is no badge.  The empty state reads "No results found" exactly when
    the trimmed query is non-empty. *)
Theorem render_results (icons : list Icon) (st : State) :
  map cardTitle (cards icons st)
  = map name (filtered icons (query st) (showAll st))
  /\ map cardPath (cards icons st)
     = map import_path (filtered icons (query st) (showAll st))
  /\ map providerLabel (cards icons st)
     = map provider (filtered icons (query st) (showAll st))
  /\ List.length (cards icons st) <= List.length icons
  /\ (cards icons st <> [] ->
      body (render icons st) = ResultsGrid (cards icons st)
      /\ countBadge (render icons st) = Some (List.length (cards icons st)))
  /\ (cards icons st = [] ->
      countBadge (render icons st) = None
      /\ exists glyph heading hint,
           body (render icons st) = EmptyState glyph heading hint
           /\ (heading = "No results found" <-> trim (query st) <> "")).
Proof.
  rewrite cards_mapFrom.
  rewrite (map_mapFrom (renderCard (copied st)) cardTitle name)
    by (intros; reflexivity).
  rewrite (map_mapFrom (renderCard (copied st)) cardPath import_path)
    by (intros; reflexivity).
  rewrite (map_mapFrom (renderCard (copied st)) providerLabel provider)
    by (intros; reflexivity).
  rewrite length_mapFrom.
  split; [reflexivity|]. split; [reflexivity|]. split; [reflexivity|].
  split; [apply length_filtered_le|].
  unfold render. cbn [body countBadge].
  destruct (filtered icons (query st) (showAll st)) as [|icon rest]; simpl.
  - split; [easy|]. intros _. split; [reflexivity|].
    destruct (trim (query st)); simpl; do 3 eexists; (split; [reflexivity|]);
      split; congruence.
  - split; [|easy]. intros _. now split.
Qed.

Lemma render_results_witness :
  cards scenarioIcons (setQuery "zz" initialState) = []
  /\ countBadge (render scenarioIcons (setQuery "zz" initialState)) = None.
Proof.
  assert (E : cards scenarioIcons (setQuery "zz" initialState) = [])
    by reflexivity.
  split; [exact E|].
  exact (proj1 (proj2 (proj2 (proj2 (proj2 (proj2
    (render_results scenarioIcons (setQuery "zz" initialState)))))) E)).
Defined.

(** ** The theme on the document *)

Section Document.

Lemma component_commit (rendered : Theme) (st : State) (attribute : option string) :
  component (commit rendered st attribute) = st.
Proof. unfold commit. now destruct (Theme_eqb rendered (theme st)). Qed.

Lemma mirrorsTheme_commit (rendered : Theme) (st : State) (attribute : option string) :
  attribute = Some (themeName rendered) ->
  mirrorsTheme (commit rendered st attribute).
Proof.
  intros ->. unfold mirrorsTheme, commit.
  destruct (theme st) eqn:E, rendered; simpl; now rewrite E.
Qed.

Lemma theme_step (st : State) (t : Z) (ev : Event) :
  theme (step st (t, ev)) =
  match ev with
  | ClickTheme => otherTheme (theme st)
  | _ => theme st
  end.
Proof.
  unfold step. cbn [fst snd].
  destruct (fireDue_frame t (timers st) st) as (_ & _ & Ht & _).
  fold (runTimers t st) in Ht.
  destruct ev; cbn [handle]; try (simpl; exact Ht).
  - destruct (handleKeyDown_untouched e t (runTimers t st)) as (_ & _ & -> & _).
    exact Ht.
  - simpl. rewrite Ht. now destruct (theme st).
Qed.

Lemma showAll_step (st : State) (t : Z) (ev : Event) :
  showAll (step st (t, ev)) =
  match ev with
  | ClickShowAll => negb (showAll st)
  | _ => showAll st
  end.
Proof.
  unfold step. cbn [fst snd].
  destruct (fireDue_frame t (timers st) st) as (_ & Hs & _).
  fold (runTimers t st) in Hs.
  destruct ev; cbn [handle]; try (simpl; exact Hs).
  - destruct (handleKeyDown_untouched e t (runTimers t st)) as (_ & -> & _).
    exact Hs.
  - simpl. now rewrite Hs.
Qed.

Lemma mirrorsTheme_dispatch (pg : Page) (timed : Z * Event) :
  mirrorsTheme pg -> mirrorsTheme (dispatch pg timed).
Proof. intros H. now apply mirrorsTheme_commit. Qed.

Lemma mirrorsTheme_events (evs : list (Z * Event)) :
  forall pg, mirrorsTheme pg -> mirrorsTheme (fold_left dispatch evs pg).
Proof.
  induction evs as [|ev evs IH]; intros pg H; [exact H|].
  simpl. now apply IH, mirrorsTheme_dispatch.
Qed.

Lemma theme_events (evs : list (Z * Event)) :
  forall pg,
    theme (component (fold_left dispatch evs pg))
    = if Nat.even (themeClicks evs) then theme (component pg)
      else otherTheme (theme (component pg)).
Proof.
  induction evs as [|[t ev] evs IH]; intros pg; [reflexivity|].
  cbn [fold_left]. rewrite IH. unfold dispatch at 1 2.
  rewrite component_commit, theme_step.
  destruct ev; try reflexivity.
  cbn [themeClicks]. rewrite Nat.even_succ, <- Nat.negb_even.
  destruct (Nat.even (themeClicks evs)), (theme (component pg)); reflexivity.
Qed.

End Document.

(** X13: after mounting and any events, the [data-theme] attribute of
    the document names the theme of the component.  The mounted theme is
    dark exactly when the platform reports a preference for dark; after
    that only clicks on the theme button change it, an even number of them
    giving the mounted theme back. *)
Theorem theme_on_document (prefersDark : option bool) (evs : list (Z * Event)) :
  mirrorsTheme (session prefersDark evs)
  /\ theme (component (mount prefersDark))
     = match prefersDark with Some true => dark | _ => light end
  /\ theme (component (session prefersDark evs))
     = if Nat.even (themeClicks evs) then theme (component (mount prefersDark))
       else otherTheme (theme (component (mount prefersDark))).
Proof.
  split; [|split].
  - apply mirrorsTheme_events. unfold mount. now apply mirrorsTheme_commit.
  - unfold mount. rewrite component_commit. now destruct prefersDark as [[]|].
  - apply theme_events.
Qed.

(** ** Escape while browsing *)

Lemma filtered_empty_query (icons : list Icon) (showAll : bool) :
  filtered icons "" showAll = if showAll then icons else [].
Proof.
  rewrite filtered_unfold. destruct showAll; simpl; [|reflexivity].
  apply filter_all. intros icon _. unfold iconMatches.
  now rewrite includes_empty.
Qed.

(** X14: two Escape presses fewer than 300 ms apart leave the flag as it
    was, so after them the result is the whole list when [showAll] was set
    and empty when it was not. *)
Theorem double_escape_while_browsing
  (icons : list Icon) (e : KeyboardEvent) (t0 now : Z) (st : State) :
  key e = "Escape" ->
  (now - t0 < 300)%Z ->
  showAll (run [(t0, KeyDown e); (now, KeyDown e)] st) = showAll st
  /\ filtered icons
       (query (run [(t0, KeyDown e); (now, KeyDown e)] st))
       (showAll (run [(t0, KeyDown e); (now, KeyDown e)] st))
     = if showAll st then icons else [].
Proof.
  intros He Hnear.
  assert (Hs : showAll (run [(t0, KeyDown e); (now, KeyDown e)] st) = showAll st).
  { unfold run. cbn [fold_left]. now rewrite !showAll_step. }
  split; [exact Hs|]. rewrite Hs.
  rewrite (run_two_escapes e He), (lastEscapeTime_press e He).
  apply Z.ltb_lt in Hnear. rewrite Hnear. cbn [query setLastEscapeTime setFocus setQuery].
  apply filtered_empty_query.
Qed.

Lemma double_escape_while_browsing_witness :
  key escapeKey = "Escape"
  /\ (2100 - 2000 < 300)%Z
  /\ filtered scenarioIcons
       (query (run [(2000, KeyDown escapeKey); (2100, KeyDown escapeKey)]%Z
                   (setShowAll true typingState)))
       (showAll (run [(2000, KeyDown escapeKey); (2100, KeyDown escapeKey)]%Z
                     (setShowAll true typingState)))
     = scenarioIcons.
Proof.
  assert (He : key escapeKey = "Escape") by reflexivity.
  assert (Hn : (2100 - 2000 < 300)%Z) by lia.
  split; [exact He|]. split; [exact Hn|].
  exact (proj2 (double_escape_while_browsing scenarioIcons escapeKey 2000 2100
                  (setShowAll true typingState) He Hn)).
Defined.

(** ** The flag across a session *)

(** X15: typing, clearing, key presses, copies, theme clicks and timers
    never touch [showAll]; only clicks on its button flip it, so after a
    session it is the starting flag when their number is even and its
    negation otherwise. *)
Theorem showAll_retained (evs : list (Z * Event)) (st : State) :
  showAll (run evs st)
  = if Nat.even (showAllClicks evs) then showAll st else negb (showAll st).
Proof.
  revert st. induction evs as [|[t ev] evs IH]; intros st; [reflexivity|].
  change (run ((t, ev) :: evs) st) with (run evs (step st (t, ev))).
  rewrite IH, showAll_step.
  destruct ev; try reflexivity.
  cbn [showAllClicks]. rewrite Nat.even_succ, <- Nat.negb_even.
  destruct (Nat.even (showAllClicks evs)), (showAll st); reflexivity.
Qed.
